(** * Campus navigation API: a shallow embedding of [app.py]

    The service loads a GeoJSON document on every request and answers three
    routes: a health check, a dump of the document, and
    [/route/<src>-to-<dst>].  The document is whatever [json.load] produced,
    so every operation of the handlers works on dynamically typed values and
    may raise.  The embedding keeps both: values are the Python objects that
    [json.load] can build, and every operation returns in an exception monad.

    Layout: [Py] is the fragment of the Python runtime the program touches
    (built-in operators, [str] methods, [math]); [App] is [app.py] itself,
    function by function; the facts follow. *)

From Stdlib Require Import ZArith String Ascii List Bool Lia.
From Stdlib Require Import PrimFloat FloatOps SpecFloat DecimalString.
Import ListNotations.

#[local] Set Warnings "-inexact-float,-register-all".
#[local] Open Scope string_scope.
#[local] Open Scope Z_scope.

(* ===================================================================== *)
(** * The Python runtime fragment                                          *)
(* ===================================================================== *)

Module Py.

(** ** Values

    The objects [json.load] builds: [None], [bool], [int] (unbounded),
    [float] (IEEE binary64, here the kernel's primitive floats), [str],
    [list] and [dict] with [str] keys.  A [dict] is kept as the list of its
    items in insertion order; [json.load] builds dicts whose keys are
    pairwise distinct, and [assoc] returns the first binding.  A [str] is a
    sequence of code points below 256. *)
Inductive value : Type :=
| VNone
| VBool (b : bool)
| VInt (z : Z)
| VFloat (f : float)
| VStr (s : string)
| VList (l : list value)
| VDict (d : list (string * value)).

(** ** Exceptions

    Only subclasses of [Exception] occur.  [exn_str] is what [str(e)]
    returns. *)
Inductive exn_class : Type :=
| FileNotFoundError
| JSONDecodeError
| TypeError
| KeyError
| IndexError
| AttributeError
| ValueError
| OverflowError
| ZeroDivisionError
| OtherException (name : string).

Record exn : Type := mkExn { exn_cls : exn_class; exn_str : string }.

Inductive result (A : Type) : Type :=
| Ok (a : A)
| Raise (e : exn).
Arguments Ok {A} a.
Arguments Raise {A} e.

Definition bind {A B : Type} (c : result A) (k : A -> result B) : result B :=
  match c with
  | Ok a => k a
  | Raise e => Raise e
  end.

Definition raise {A : Type} (c : exn_class) (msg : string) : result A :=
  Raise (mkExn c msg).

(** [try: c  except Exception as e: h e] *)
Definition try_except {A : Type} (c : result A) (h : exn -> A) : A :=
  match c with
  | Ok a => a
  | Raise e => h e
  end.

Declare Scope py_scope.
Delimit Scope py_scope with py.
Notation "x <- c ;; k" := (bind c (fun x => k))
  (at level 61, c at next level, right associativity) : py_scope.
#[local] Open Scope py_scope.

(** ** Strings *)

(** The double quote, which some messages of the interpreter contain. *)
Definition dq : string := String (ascii_of_nat 34) EmptyString.

(** [repr] of a [str] that holds no quote, backslash or control character
    (the only keys [app.py] subscripts with are such literals). *)
Definition repr_str (s : string) : string := "'" ++ s ++ "'".

(** [sub in s] for two [str]. *)
Fixpoint str_contains (sub s : string) : bool :=
  String.prefix sub s ||
  match s with
  | EmptyString => false
  | String _ s' => str_contains sub s'
  end.

(** [s.split(sep)] for a non-empty [sep]: occurrences are taken left to
    right and do not overlap.  [skip] counts the characters of a matched
    separator still to be passed over. *)
Fixpoint split_from (sep s : string) (skip : nat) : list string :=
  match s with
  | EmptyString => [EmptyString]
  | String c s' =>
      match skip with
      | S k => split_from sep s' k
      | O =>
          if String.prefix sep s
          then EmptyString :: split_from sep s' (Nat.pred (String.length sep))
          else match split_from sep s' 0 with
               | part :: parts => String c part :: parts
               | [] => [String c EmptyString]
               end
      end
  end.

Definition split (sep s : string) : list string := split_from sep s 0.

(** [c.isspace()] on the code points below 256: TAB, LF, VT, FF, CR,
    FS, GS, RS, US, SPACE, NEL and NBSP. *)
Definition isspace (c : ascii) : bool :=
  let n := nat_of_ascii c in
  ((9 <=? n) && (n <=? 13) || (28 <=? n) && (n <=? 32)
   || (n =? 133) || (n =? 160))%nat.

Fixpoint lstrip (s : string) : string :=
  match s with
  | EmptyString => EmptyString
  | String c s' => if isspace c then lstrip s' else s
  end.

Fixpoint rstrip (s : string) : string :=
  match s with
  | EmptyString => EmptyString
  | String c s' =>
      match rstrip s' with
      | EmptyString => if isspace c then EmptyString else String c EmptyString
      | t => String c t
      end
  end.

(** [s.strip()] *)
Definition strip (s : string) : string := rstrip (lstrip s).

(** [str(n)] for an [int]. *)
Definition str_of_int (z : Z) : string := NilZero.string_of_int (Z.to_int z).

(** ** Built-in operations on values *)

Definition type_name (v : value) : string :=
  match v with
  | VNone => "NoneType"
  | VBool _ => "bool"
  | VInt _ => "int"
  | VFloat _ => "float"
  | VStr _ => "str"
  | VList _ => "list"
  | VDict _ => "dict"
  end.

(** Truth value testing, as [if v] and [not v] use it. *)
Definition truthy (v : value) : bool :=
  match v with
  | VNone => false
  | VBool b => b
  | VInt z => negb (z =? 0)
  | VFloat f => negb (PrimFloat.eqb f 0%float)
  | VStr s => negb (String.eqb s "")
  | VList l => match l with [] => false | _ => true end
  | VDict d => match d with [] => false | _ => true end
  end.

(** [v is None] *)
Definition is_none (v : value) : bool :=
  match v with
  | VNone => true
  | _ => false
  end.

Fixpoint assoc (k : string) (d : list (string * value)) : option value :=
  match d with
  | [] => None
  | (k', v) :: d' => if String.eqb k' k then Some v else assoc k d'
  end.

(** [v == s] for a [str] [s]: only an equal [str] compares equal. *)
Definition eq_str (v : value) (s : string) : bool :=
  match v with
  | VStr t => String.eqb t s
  | _ => false
  end.

Definition not_subscriptable {A : Type} (v : value) : result A :=
  raise TypeError ("'" ++ type_name v ++ "' object is not subscriptable").

(** [v[k]] for a [str] key [k]. *)
Definition getitem_key (v : value) (k : string) : result value :=
  match v with
  | VDict d =>
      match assoc k d with
      | Some x => Ok x
      | None => raise KeyError (repr_str k)
      end
  | VList _ => raise TypeError "list indices must be integers or slices, not str"
  | VStr _ => raise TypeError "string indices must be integers, not 'str'"
  | _ => not_subscriptable v
  end.

Fixpoint str_nth (s : string) (i : nat) : option ascii :=
  match s, i with
  | EmptyString, _ => None
  | String c _, O => Some c
  | String _ s', S j => str_nth s' j
  end.

(** [v[i]] for a non-negative [int] [i].  A [dict] built by [json.load] has
    no [int] key. *)
Definition getitem_idx (v : value) (i : nat) : result value :=
  match v with
  | VList l =>
      match nth_error l i with
      | Some x => Ok x
      | None => raise IndexError "list index out of range"
      end
  | VStr s =>
      match str_nth s i with
      | Some c => Ok (VStr (String c EmptyString))
      | None => raise IndexError "string index out of range"
      end
  | VDict _ => raise KeyError (str_of_int (Z.of_nat i))
  | _ => not_subscriptable v
  end.

(** [k in v] for a [str] [k]. *)
Definition contains (k : string) (v : value) : result bool :=
  match v with
  | VDict d => Ok (match assoc k d with Some _ => true | None => false end)
  | VList l => Ok (existsb (fun x => eq_str x k) l)
  | VStr s => Ok (str_contains k s)
  | _ => raise TypeError
           ("argument of type '" ++ type_name v ++ "' is not iterable")
  end.

Fixpoint chars (s : string) : list value :=
  match s with
  | EmptyString => []
  | String c s' => VStr (String c EmptyString) :: chars s'
  end.

(** The items [for x in v] visits. *)
Definition iter (v : value) : result (list value) :=
  match v with
  | VList l => Ok l
  | VStr s => Ok (chars s)
  | VDict d => Ok (map (fun kv => VStr (fst kv)) d)
  | _ => raise TypeError ("'" ++ type_name v ++ "' object is not iterable")
  end.

(** [v.get(k, default)]; [v.get(k)] is [v.get(k, None)]. *)
Definition get (v : value) (k : string) (default : value) : result value :=
  match v with
  | VDict d =>
      match assoc k d with
      | Some x => Ok x
      | None => Ok default
      end
  | _ => raise AttributeError
           ("'" ++ type_name v ++ "' object has no attribute 'get'")
  end.

(** ** Numbers *)

Definition sf_of_Z (z : Z) : spec_float :=
  match z with
  | Z0 => S754_zero false
  | Zpos p => S754_finite false p 0
  | Zneg p => S754_finite true p 0
  end.

(** [float(z)]: round to nearest, ties to even; too large raises. *)
Definition float_of_int (z : Z) : result float :=
  match binary_normalize prec emax z 0 false with
  | S754_infinity _ => raise OverflowError "int too large to convert to float"
  | sf => Ok (SF2Prim sf)
  end.

(** [int(f)]: truncation towards zero. *)
Definition int_of_float (f : float) : result Z :=
  match Prim2SF f with
  | S754_nan => raise ValueError "cannot convert float NaN to integer"
  | S754_infinity _ =>
      raise OverflowError "cannot convert float infinity to integer"
  | S754_zero _ => Ok 0
  | S754_finite s m e =>
      let mag := Z.shiftl (Zpos m) e in
      Ok (if s then - mag else mag)
  end.

(** The [int] a [bool] or [int] stands for in arithmetic. *)
Definition as_int (v : value) : option Z :=
  match v with
  | VBool b => Some (if b then 1 else 0)
  | VInt z => Some z
  | _ => None
  end.

Inductive number : Type :=
| NInt (z : Z)
| NFloat (f : float).

Definition as_number (v : value) : option number :=
  match v with
  | VFloat f => Some (NFloat f)
  | _ => option_map NInt (as_int v)
  end.

Definition to_float (n : number) : result float :=
  match n with
  | NInt z => float_of_int z
  | NFloat f => Ok f
  end.

Definition unsupported {A : Type} (op : string) (a b : value) : result A :=
  raise TypeError ("unsupported operand type(s) for " ++ op ++ ": '"
                   ++ type_name a ++ "' and '" ++ type_name b ++ "'").

(** [a + b] *)
Definition add (a b : value) : result value :=
  match as_number a, as_number b with
  | Some (NInt x), Some (NInt y) => Ok (VInt (x + y))
  | Some x, Some y =>
      fx <- to_float x ;; fy <- to_float y ;; Ok (VFloat (fx + fy)%float)
  | _, _ =>
      match a, b with
      | VStr s, VStr t => Ok (VStr (s ++ t))
      | VStr _, _ =>
          raise TypeError ("can only concatenate str (not " ++ dq
                           ++ type_name b ++ dq ++ ") to str")
      | VList l, VList m => Ok (VList (l ++ m))
      | VList _, _ =>
          raise TypeError ("can only concatenate list (not " ++ dq
                           ++ type_name b ++ dq ++ ") to list")
      | _, _ => unsupported "+" a b
      end
  end.

(** [a / b]: true division.  Two [int]s divide exactly and round once. *)
Definition truediv (a b : value) : result value :=
  match as_number a, as_number b with
  | Some (NInt x), Some (NInt y) =>
      if y =? 0 then raise ZeroDivisionError "division by zero"
      else match SFdiv prec emax (sf_of_Z x) (sf_of_Z y) with
           | S754_infinity _ =>
               raise OverflowError
                     "integer division result too large for a float"
           | sf => Ok (VFloat (SF2Prim sf))
           end
  | Some x, Some y =>
      fx <- to_float x ;; fy <- to_float y ;;
      if PrimFloat.eqb fy 0%float
      then raise ZeroDivisionError "float division by zero"
      else Ok (VFloat (fx / fy)%float)
  | _, _ => unsupported "/" a b
  end.

(** ** The [math] module

    [math.radians] and [math.sqrt] are fixed by IEEE arithmetic.  The
    platform's C library supplies [sin], [cos], [asin] and [pow]; they are
    the fields of [libm]. *)
Record libm : Type := mkLibm {
  c_sin : float -> float;
  c_cos : float -> float;
  c_asin : float -> float;
  c_pow : float -> float -> float
}.

Definition is_finite (f : float) : bool :=
  negb (PrimFloat.is_nan f) && negb (PrimFloat.is_infinity f).

(** The argument conversion of the [math] functions. *)
Definition as_double (v : value) : result float :=
  match as_number v with
  | Some n => to_float n
  | None => raise TypeError ("must be real number, not " ++ type_name v)
  end.

(** The wrapper the [math] module puts around a C function of one
    argument that cannot overflow. *)
Definition math_1 (func : float -> float) (x : float) : result float :=
  let r := func x in
  if PrimFloat.is_nan r && negb (PrimFloat.is_nan x)
  then raise ValueError "math domain error"
  else if PrimFloat.is_infinity r && is_finite x
  then raise ValueError "math domain error"
  else Ok r.

Definition deg_to_rad : float := (3.141592653589793 / 180)%float.

(** [math.radians(v)] *)
Definition radians (v : value) : result float :=
  x <- as_double v ;; Ok (x * deg_to_rad)%float.

Definition math_sin (m : libm) : float -> result float := math_1 (c_sin m).
Definition math_cos (m : libm) : float -> result float := math_1 (c_cos m).
Definition math_asin (m : libm) : float -> result float := math_1 (c_asin m).
Definition math_sqrt : float -> result float := math_1 PrimFloat.sqrt.

(** [x ** 2] for a [float] [x]. *)
Definition float_sq (m : libm) (x : float) : result float :=
  let r := c_pow m x 2%float in
  if PrimFloat.is_infinity r && is_finite x
  then raise OverflowError "(34, 'Numerical result out of range')"
  else Ok r.

End Py.

(* ===================================================================== *)
(** * [app.py]                                                             *)
(* ===================================================================== *)

Module App.
Import Py.
#[local] Open Scope py_scope.

(** ** The outside world

    [GEOJSON_FILE] is read afresh by every request.  What the handlers can
    observe of it is the outcome of [open] followed by [json.load]. *)
Inductive geojson_file : Type :=
| Absent                 (* [open] raises [FileNotFoundError] *)
| Unreadable (class_name msg : string)
                         (* [open] or the read raises an exception of
                            another class: [PermissionError],
                            [UnicodeDecodeError], ... *)
| NotJson                (* [json.load] raises [JSONDecodeError] *)
| Json (v : value).      (* [json.load] returns [v] *)

(** What a view function returns: the object handed to [jsonify] and the
    status code (200 when the source gives none). *)
Record response : Type := mkResponse { body : value; status : Z }.

Definition jsonify (v : value) : response := mkResponse v 200.

Definition with_status (r : response) (code : Z) : response :=
  mkResponse (body r) code.

(** [jsonify({"error": msg}), code] *)
Definition error_response (msg : string) (code : Z) : response :=
  with_status (jsonify (VDict [("error", VStr msg)])) code.

(** The body of the [try] in [load_geojson_data]. *)
Definition open_and_parse (file : geojson_file) : result value :=
  match file with
  | Absent => raise FileNotFoundError "[Errno 2] No such file or directory"
  | Unreadable class_name msg => raise (OtherException class_name) msg
  | NotJson => raise JSONDecodeError "Expecting value"
  | Json v => Ok v
  end.

Definition load_geojson_data (file : geojson_file) : result value :=
  match open_and_parse file with
  | Ok v => Ok v
  | Raise e =>
      match exn_cls e with
      | FileNotFoundError => Ok VNone
      | JSONDecodeError => Ok VNone
      | _ => Raise e
      end
  end.

(** The [for] loop of [find_location_by_id]. *)
Fixpoint scan_features (features : list value) (location_id : string)
  : result value :=
  match features with
  | [] => Ok VNone
  | feature :: rest =>
      i <- get feature "id" VNone ;;
      if eq_str i location_id then Ok feature
      else scan_features rest location_id
  end.

Definition find_location_by_id (data : value) (location_id : string)
  : result value :=
  if negb (truthy data) then Ok VNone
  else
    has <- contains "features" data ;;
    if negb has then Ok VNone
    else
      fs <- getitem_key data "features" ;;
      features <- iter fs ;;
      scan_features features location_id.

Definition generate_simple_route (source_coords dest_coords : value)
  : result value :=
  s0 <- getitem_idx source_coords 0 ;;
  sum0 <- add s0 dest_coords ;;
  mid0 <- truediv sum0 (VInt 2) ;;
  s1 <- getitem_idx source_coords 1 ;;
  d1 <- getitem_idx dest_coords 1 ;;
  sum1 <- add s1 d1 ;;
  mid1 <- truediv sum1 (VInt 2) ;;
  Ok (VList [source_coords; VList [mid0; mid1]; dest_coords]).

Definition home : response :=
  jsonify (VDict [("status", VStr "AR Navigation API is running");
                  ("version", VStr "1.0");
                  ("environment", VStr "Azure Production");
                  ("app_name", VStr "AR Campus Christ Navigation")]).

Definition file_error : string := "GeoJSON file not found or invalid".
Definition format_error : string :=
  "Invalid route format. Use: source_id-to-destination_id".
Definition empty_error : string :=
  "Source and destination IDs cannot be empty".
Definition same_error : string := "Source and destination cannot be the same".
Definition source_error (source_id : string) : string :=
  "Source location '" ++ source_id ++ "' not found".
Definition dest_error (dest_id : string) : string :=
  "Destination location '" ++ dest_id ++ "' not found".
Definition server_error (e : exn) : string := "Server error: " ++ exn_str e.

(** No handler of its own: what [load_geojson_data] lets through reaches
    the framework. *)
Definition get_geojson (file : geojson_file) : result response :=
  data <- load_geojson_data file ;;
  if is_none data then Ok (error_response file_error 500)
  else Ok (jsonify data).

Section Route.

Variable m : libm.

(** The function [get_route] defines inside itself. *)
Definition calculate_distance (coord1 coord2 : value) : result float :=
  c11 <- getitem_idx coord1 1 ;;
  lat1 <- radians c11 ;;
  c10 <- getitem_idx coord1 0 ;;
  lon1 <- radians c10 ;;
  c21 <- getitem_idx coord2 1 ;;
  lat2 <- radians c21 ;;
  lon2 <- radians coord2 ;;
  let dlat := (lat2 - lat1)%float in
  let dlon := (lon2 - lon1)%float in
  sin_dlat <- math_sin m (dlat / 2)%float ;;
  sq_dlat <- float_sq m sin_dlat ;;
  cos1 <- math_cos m lat1 ;;
  cos2 <- math_cos m lat2 ;;
  sin_dlon <- math_sin m (dlon / 2)%float ;;
  sq_dlon <- float_sq m sin_dlon ;;
  let a := (sq_dlat + cos1 * cos2 * sq_dlon)%float in
  root <- math_sqrt a ;;
  asin_root <- math_asin m root ;;
  let c := (2 * asin_root)%float in
  let r := 6371000%float in
  Ok (r * c)%float.

(** The body of the [try] in [get_route]. *)
Definition route_pipeline (file : geojson_file) (path_name : string)
  : result response :=
  data <- load_geojson_data file ;;
  if is_none data then Ok (error_response file_error 500)
  else if negb (str_contains "-to-" path_name)
  then Ok (error_response format_error 400)
  else
    let parts := split "-to-" path_name in
    if negb (Nat.eqb (List.length parts) 2)
    then Ok (error_response format_error 400)
    else
      let source_id := strip (nth 0 parts "") in
      let dest_id := strip (nth 1 parts "") in
      if negb (truthy (VStr source_id)) || negb (truthy (VStr dest_id))
      then Ok (error_response empty_error 400)
      else if String.eqb source_id dest_id
      then Ok (error_response same_error 400)
      else
        source_location <- find_location_by_id data source_id ;;
        dest_location <- find_location_by_id data dest_id ;;
        if negb (truthy source_location)
        then Ok (error_response (source_error source_id) 404)
        else if negb (truthy dest_location)
        then Ok (error_response (dest_error dest_id) 404)
        else
          source_geometry <- getitem_key source_location "geometry" ;;
          source_coords <- getitem_key source_geometry "coordinates" ;;
          dest_geometry <- getitem_key dest_location "geometry" ;;
          dest_coords <- getitem_key dest_geometry "coordinates" ;;
          route_coordinates <- generate_simple_route source_coords dest_coords ;;
          distance <- calculate_distance source_coords dest_coords ;;
          meters <- int_of_float distance ;;
          minutes <- int_of_float (distance / 80)%float ;;
          source_props <- get source_location "properties" (VDict []) ;;
          source_name <- get source_props "name" (VStr source_id) ;;
          dest_props <- get dest_location "properties" (VDict []) ;;
          dest_name <- get dest_props "name" (VStr dest_id) ;;
          Ok (jsonify (VDict [
            ("type", VStr "generated_route");
            ("coordinates", route_coordinates);
            ("properties", VDict [
               ("distance", VStr (str_of_int meters ++ "m"));
               ("duration", VStr (str_of_int minutes ++ "min"));
               ("source_id", VStr source_id);
               ("destination_id", VStr dest_id);
               ("source_name", source_name);
               ("destination_name", dest_name)])])).

Definition get_route (file : geojson_file) (path_name : string) : response :=
  try_except (route_pipeline file path_name)
             (fun e => error_response (server_error e) 500).

End Route.

End App.

Import Py App.
#[local] Open Scope py_scope.

(* ===================================================================== *)
(** * Example data                                                         *)
(* ===================================================================== *)

(** A C library good for small angles: [sin x = x], [cos x = 1 - x*x/2],
    [asin x = x], and [pow] used for squares only. *)
Definition small_angle_libm : libm :=
  mkLibm (fun x => x)
         (fun x => 1 - x * x / 2)%float
         (fun x => x)
         (fun x _ => x * x)%float.

Definition point_feature (id name : string) (lon lat : float) : value :=
  VDict [("type", VStr "Feature");
         ("id", VStr id);
         ("properties", VDict [("name", VStr name)]);
         ("geometry", VDict [("type", VStr "Point");
                             ("coordinates", VList [VFloat lon; VFloat lat])])].

Definition campus_features : list value :=
  [point_feature "loc1" "Gate" 77.0 13.0;
   point_feature "loc2" "Library" 77.01 13.01].

(** The two-feature document of the specification's example. *)
Definition campus_data : value :=
  VDict [("type", VStr "FeatureCollection");
         ("features", VList campus_features)].

Definition campus : geojson_file := Json campus_data.

(** A feature without geometry. *)
Definition bare_feature (id : string) : value :=
  VDict [("type", VStr "Feature"); ("id", VStr id)].

(** A features array with a repeated id and an entry that is no object. *)
Definition ragged_features : list value :=
  [point_feature "a" "Hall" 77.0 13.0;
   point_feature "b" "First" 77.5 13.5;
   VInt 5;
   point_feature "b" "Second" 78.0 14.0].

Definition ragged_data : value := VDict [("features", VList ragged_features)].

Definition bare_features : list value :=
  [bare_feature "loc1"; point_feature "loc2" "Library" 77.01 13.01].

Definition bare_data : value := VDict [("features", VList bare_features)].

(* ===================================================================== *)
(** * Vocabulary of the statements                                         *)
(* ===================================================================== *)

Definition is_dict (v : value) : bool :=
  match v with
  | VDict _ => true
  | _ => false
  end.

(** The feature carries the identifier [id]. *)
Definition feature_has_id (id : string) (feature : value) : bool :=
  match feature with
  | VDict d =>
      match assoc "id" d with
      | Some v => eq_str v id
      | None => false
      end
  | _ => false
  end.

(** [data] is an object whose ["features"] member is the array [features]
    of objects: the part of the GeoJSON shape the lookup relies on. *)
Definition feature_collection (data : value) (features : list value) : Prop :=
  exists d,
    data = VDict d /\
    assoc "features" d = Some (VList features) /\
    Forall (fun f => is_dict f = true) features.

(** [id] names a feature of the collection. *)
Definition present (features : list value) (id : string) : bool :=
  existsb (feature_has_id id) features.

(** The first feature carrying [id], or [None]. *)
Definition first_with_id (features : list value) (id : string) : value :=
  match find (feature_has_id id) features with
  | Some f => f
  | None => VNone
  end.

(** The request passes the format, emptiness and sameness checks of
    [get_route] and is resolved with [source_id] and [dest_id]. *)
Definition accepted (path_name source_id dest_id : string) : Prop :=
  exists p0 p1,
    split "-to-" path_name = [p0; p1] /\
    source_id = strip p0 /\ dest_id = strip p1 /\
    source_id <> "" /\ dest_id <> "" /\ source_id <> dest_id.

(** [location['geometry']['coordinates']] *)
Definition coordinates_of (location : value) : result value :=
  (geometry <- getitem_key location "geometry" ;;
   getitem_key geometry "coordinates")%py.

(** A fault [e] at one stage of a request: the load; the lookup of the
    source, then of the destination; the extraction of the source's
    coordinates, then of the destination's; the geometry.  Each stage is
    reached only when all before it returned. *)
Inductive stage_fault (file : geojson_file) (path_name : string) (e : exn)
  : Prop :=
| fault_in_load :
    load_geojson_data file = Raise e ->
    stage_fault file path_name e
| fault_in_source_lookup (data : value) (source_id dest_id : string) :
    load_geojson_data file = Ok data -> is_none data = false ->
    accepted path_name source_id dest_id ->
    find_location_by_id data source_id = Raise e ->
    stage_fault file path_name e
| fault_in_dest_lookup (data : value) (source_id dest_id : string)
                       (source_location : value) :
    load_geojson_data file = Ok data -> is_none data = false ->
    accepted path_name source_id dest_id ->
    find_location_by_id data source_id = Ok source_location ->
    find_location_by_id data dest_id = Raise e ->
    stage_fault file path_name e
| fault_in_source_extraction (data : value) (source_id dest_id : string)
                             (source_location dest_location : value) :
    load_geojson_data file = Ok data -> is_none data = false ->
    accepted path_name source_id dest_id ->
    find_location_by_id data source_id = Ok source_location ->
    find_location_by_id data dest_id = Ok dest_location ->
    truthy source_location = true -> truthy dest_location = true ->
    coordinates_of source_location = Raise e ->
    stage_fault file path_name e
| fault_in_dest_extraction (data : value) (source_id dest_id : string)
                           (source_location dest_location : value)
                           (source_coords : value) :
    load_geojson_data file = Ok data -> is_none data = false ->
    accepted path_name source_id dest_id ->
    find_location_by_id data source_id = Ok source_location ->
    find_location_by_id data dest_id = Ok dest_location ->
    truthy source_location = true -> truthy dest_location = true ->
    coordinates_of source_location = Ok source_coords ->
    coordinates_of dest_location = Raise e ->
    stage_fault file path_name e
| fault_in_geometry (data : value) (source_id dest_id : string)
                    (source_location dest_location : value)
                    (source_coords dest_coords : value) :
    load_geojson_data file = Ok data -> is_none data = false ->
    accepted path_name source_id dest_id ->
    find_location_by_id data source_id = Ok source_location ->
    find_location_by_id data dest_id = Ok dest_location ->
    truthy source_location = true -> truthy dest_location = true ->
    coordinates_of source_location = Ok source_coords ->
    coordinates_of dest_location = Ok dest_coords ->
    generate_simple_route source_coords dest_coords = Raise e ->
    stage_fault file path_name e.

(** The shape the specification expects of the document, in its words: a
    feature collection keyed by feature [id], each feature with a
    [geometry.coordinates] pair.  [app.py] has no such check; this reading
    exists to compare the load against. *)
Definition spec_coordinate_pair (v : value) : bool :=
  match v with
  | VList [x; y] =>
      match as_number x, as_number y with
      | Some _, Some _ => true
      | _, _ => false
      end
  | _ => false
  end.

Definition spec_feature (f : value) : bool :=
  match f with
  | VDict d =>
      match assoc "id" d, assoc "geometry" d with
      | Some (VStr _), Some (VDict g) =>
          match assoc "coordinates" g with
          | Some c => spec_coordinate_pair c
          | None => false
          end
      | _, _ => false
      end
  | _ => false
  end.

Definition spec_feature_collection (v : value) : bool :=
  match v with
  | VDict d =>
      match assoc "features" d with
      | Some (VList fs) => forallb spec_feature fs
      | _ => false
      end
  | _ => false
  end.

(** The file's content parses into the expected shape. *)
Definition parses_to_collection (file : geojson_file) : bool :=
  match file with
  | Json v => spec_feature_collection v
  | _ => false
  end.

(** [sep.join(parts)] *)
Fixpoint join (sep : string) (parts : list string) : string :=
  match parts with
  | [] => EmptyString
  | [p] => p
  | p :: rest => p ++ sep ++ join sep rest
  end.

(** [s[k:]] *)
Fixpoint drop (k : nat) (s : string) : string :=
  match k, s with
  | O, _ => s
  | S _, EmptyString => EmptyString
  | S k', String _ s' => drop k' s'
  end.

(* ===================================================================== *)
(** * Facts about the runtime fragment                                     *)
(* ===================================================================== *)

Section StringFacts.

Variable sep : string.

Lemma split_without_separator (s : string) :
  str_contains sep s = false -> split sep s = [s].
Proof.
  unfold split.
  induction s as [|c s IH]; intros H.
  - reflexivity.
  - cbn [str_contains] in H.
    apply orb_false_iff in H as [Hp Hc].
    cbn [split_from]. rewrite Hp, (IH Hc). reflexivity.
Qed.

Lemma str_contains_of_split (s : string) :
  List.length (split sep s) <> 1%nat -> str_contains sep s = true.
Proof.
  intros H. destruct (str_contains sep s) eqn:E; [reflexivity|].
  rewrite (split_without_separator s E) in H. now elim H.
Qed.

End StringFacts.

Example split_two_ids : split "-to-" "loc1-to-loc2" = ["loc1"; "loc2"].
Proof. reflexivity. Qed.

Example split_overlapping : split "-to-" "a-to-to-b" = ["a"; "to-b"].
Proof. reflexivity. Qed.

Example split_trailing : split "-to-" "a-to-" = ["a"; ""].
Proof. reflexivity. Qed.

Example strip_both_ends : strip "  loc 1 " = "loc 1".
Proof. reflexivity. Qed.

Lemma truthy_str (s : string) : s <> "" -> truthy (VStr s) = true.
Proof.
  intros H. cbn [truthy]. apply negb_true_iff. now apply String.eqb_neq.
Qed.

Lemma getitem_idx_not_number (v x : value) (i : nat) :
  getitem_idx v i = Ok x -> as_number v = None.
Proof. destruct v; cbn; try discriminate; reflexivity. Qed.

Lemma number_not_subscriptable (v : value) (n : number) (i : nat) :
  as_number v = Some n -> getitem_idx v i = not_subscriptable v.
Proof. destruct v; cbn; try discriminate; reflexivity. Qed.

Lemma add_not_number (a b r : value) :
  as_number b = None -> add a b = Ok r -> as_number r = None.
Proof.
  intros Hb H.
  destruct b; try discriminate Hb;
    destruct a; cbn in H; try discriminate H;
    injection H as <-; reflexivity.
Qed.

Lemma truediv_not_number (a b : value) :
  as_number a = None -> truediv a b = unsupported "/" a b.
Proof. intros H. unfold truediv. now rewrite H. Qed.

Lemma radians_not_number (v : value) :
  as_number v = None ->
  radians v = raise TypeError ("must be real number, not " ++ type_name v).
Proof. intros H. unfold radians, as_double. now rewrite H. Qed.

(* ===================================================================== *)
(** * Facts about the helpers of [app.py]                                  *)
(* ===================================================================== *)

(** ** [load_geojson_data] *)

Lemma load_json (v : value) : load_geojson_data (Json v) = Ok v.
Proof. reflexivity. Qed.

Lemma load_unreadable (class_name msg : string) :
  load_geojson_data (Unreadable class_name msg)
  = raise (OtherException class_name) msg.
Proof. reflexivity. Qed.

(** ** [find_location_by_id] *)

Lemma scan_features_first (features : list value) (id : string) :
  Forall (fun f => is_dict f = true) features ->
  scan_features features id = Ok (first_with_id features id).
Proof.
  unfold first_with_id.
  induction 1 as [|f fs Hf _ IH]; [reflexivity|].
  destruct f as [| | | | | |d]; try discriminate Hf.
  cbn [scan_features find feature_has_id get].
  destruct (assoc "id" d) as [v|]; cbn [bind eq_str].
  - destruct (eq_str v id); [reflexivity|exact IH].
  - exact IH.
Qed.

Lemma find_location_by_id_collection (data : value) (features : list value)
      (id : string) :
  feature_collection data features ->
  find_location_by_id data id = Ok (first_with_id features id).
Proof.
  intros (d & -> & Hfs & Hall).
  unfold find_location_by_id.
  assert (Ht : truthy (VDict d) = true).
  { destruct d; [discriminate Hfs|reflexivity]. }
  rewrite Ht. cbn [negb contains getitem_key bind].
  rewrite Hfs. cbn [negb bind iter].
  now apply scan_features_first.
Qed.

Lemma first_with_id_absent (features : list value) (id : string) :
  present features id = false -> first_with_id features id = VNone.
Proof.
  unfold present, first_with_id.
  induction features as [|f fs IH]; [reflexivity|].
  cbn [existsb find]. intros H.
  apply orb_false_iff in H as [Hf Hfs].
  rewrite Hf. exact (IH Hfs).
Qed.

Lemma first_with_id_present (features : list value) (id : string) :
  present features id = true ->
  feature_has_id id (first_with_id features id) = true.
Proof.
  unfold present, first_with_id.
  induction features as [|f fs IH]; [discriminate|].
  cbn [existsb find]. intros H.
  destruct (feature_has_id id f) eqn:Hf; [exact Hf|].
  exact (IH H).
Qed.

Lemma feature_with_id_truthy (id : string) (f : value) :
  feature_has_id id f = true -> truthy f = true.
Proof.
  destruct f as [| | | | | |d]; try discriminate.
  destruct d; [discriminate|reflexivity].
Qed.

(** ** [generate_simple_route]

    The first midpoint adds a coordinate to the whole destination object;
    no pair of arguments gets past both that sum and the subscript
    [dest_coords[1]]. *)
Lemma generate_simple_route_raises (source_coords dest_coords : value) :
  exists e, generate_simple_route source_coords dest_coords = Raise e.
Proof.
  unfold generate_simple_route.
  destruct (getitem_idx source_coords 0) as [s0|e];
    cbn [bind]; [|now exists e].
  destruct (add s0 dest_coords) as [sum0|e] eqn:Hadd;
    cbn [bind]; [|now exists e].
  destruct (as_number dest_coords) as [n|] eqn:Hd.
  - destruct (truediv sum0 (VInt 2)) as [mid0|e]; cbn [bind]; [|now exists e].
    destruct (getitem_idx source_coords 1) as [s1|e];
      cbn [bind]; [|now exists e].
    rewrite (number_not_subscriptable dest_coords n 1 Hd).
    eexists; reflexivity.
  - rewrite (truediv_not_number sum0 (VInt 2)
               (add_not_number s0 dest_coords sum0 Hd Hadd)).
    eexists; reflexivity.
Qed.

Section DistanceFacts.

Variable m : libm.

(** ** [calculate_distance]

    The second longitude is taken from the whole of [coord2], which has
    just been subscripted and so is no number. *)
Lemma calculate_distance_raises (coord1 coord2 : value) :
  exists e, calculate_distance m coord1 coord2 = Raise e.
Proof.
  unfold calculate_distance.
  destruct (getitem_idx coord1 1) as [c11|e]; cbn [bind]; [|now exists e].
  destruct (radians c11) as [lat1|e]; cbn [bind]; [|now exists e].
  destruct (getitem_idx coord1 0) as [c10|e]; cbn [bind]; [|now exists e].
  destruct (radians c10) as [lon1|e]; cbn [bind]; [|now exists e].
  destruct (getitem_idx coord2 1) as [c21|e] eqn:H2;
    cbn [bind]; [|now exists e].
  destruct (radians c21) as [lat2|e]; cbn [bind]; [|now exists e].
  rewrite (radians_not_number coord2 (getitem_idx_not_number _ _ _ H2)).
  eexists; reflexivity.
Qed.

End DistanceFacts.

(* ===================================================================== *)
(** * The dataset load                                                     *)
(* ===================================================================== *)

Example campus_is_collection : parses_to_collection campus = true.
Proof. reflexivity. Qed.

(** An empty object is a JSON document and no feature collection; the load
    hands it on, and the dump endpoint serves it with status 200. *)
Example get_geojson_empty_object :
  get_geojson (Json (VDict [])) = Ok (jsonify (VDict [])).
Proof. reflexivity. Qed.

(** C8, as stated, fails: a load that yields [None] exactly when the file
    is absent or does not parse into the feature-collection shape would
    reject the document [{}]; [load_geojson_data] returns it. *)
Lemma load_keeps_shapeless_document :
  ~ (forall file,
        load_geojson_data file = Ok VNone <->
        file = Absent \/ parses_to_collection file = false).
Proof.
  intros H.
  destruct (H (Json (VDict []))) as [_ H'].
  discriminate H'. right. reflexivity.
Qed.

(** C8, amended: [load_geojson_data] yields [None] exactly when the file is
    absent, its content is not JSON, or its content is the JSON literal
    [null]; every JSON document is returned as parsed, with no check of its
    shape. *)
Theorem load_geojson_data_none_iff (file : geojson_file) (v : value) :
  (load_geojson_data file = Ok VNone <->
   file = Absent \/ file = NotJson \/ file = Json VNone)
  /\ load_geojson_data (Json v) = Ok v.
Proof.
  split; [|reflexivity].
  split.
  - destruct file as [|c msg| |w]; cbn; intros H.
    + now left.
    + discriminate H.
    + now right; left.
    + injection H as ->. now right; right.
  - intros [->|[->| ->]]; reflexivity.
Qed.

(** Without a dataset the dump endpoint answers 500 with the fixed message. *)
Lemma get_geojson_unavailable (file : geojson_file) :
  load_geojson_data file = Ok VNone ->
  get_geojson file = Ok (error_response file_error 500).
Proof. intros H. unfold get_geojson. now rewrite H. Qed.

(** The dump endpoint has no handler: a fault of the load leaves it. *)
Lemma get_geojson_fault_escapes (class_name msg : string) :
  get_geojson (Unreadable class_name msg)
  = raise (OtherException class_name) msg.
Proof. reflexivity. Qed.

(* ===================================================================== *)
(** * The geometry                                                         *)
(* ===================================================================== *)

(** On two coordinate pairs the first midpoint coordinate adds a float to
    the destination list, and the call raises [TypeError]. *)
Theorem generate_simple_route_pair_fault (lon1 lat1 lon2 lat2 : float) :
  generate_simple_route (VList [VFloat lon1; VFloat lat1])
                        (VList [VFloat lon2; VFloat lat2])
  = raise TypeError "unsupported operand type(s) for +: 'float' and 'list'".
Proof. reflexivity. Qed.

(** On two coordinate pairs the second longitude is converted from the
    whole destination list, and the call raises [TypeError], whatever the C
    library computes. *)
Theorem calculate_distance_pair_fault (m : libm) (lon1 lat1 lon2 lat2 : float) :
  calculate_distance m (VList [VFloat lon1; VFloat lat1])
                       (VList [VFloat lon2; VFloat lat2])
  = raise TypeError "must be real number, not list".
Proof. reflexivity. Qed.

(** C2: [generate_simple_route] does not return the waypoints
    [[src, midpoint, dst]]; it returns on no pair of arguments at all,
    coordinate pairs or not, because the sum in the first midpoint
    coordinate takes the whole of [dest_coords]. *)
Theorem generate_simple_route_never_returns
        (source_coords dest_coords waypoints : value) :
  generate_simple_route source_coords dest_coords <> Ok waypoints.
Proof.
  destruct (generate_simple_route_raises source_coords dest_coords) as [e ->].
  discriminate.
Qed.

(** C3: [calculate_distance] does not return the haversine distance; it
    returns on no pair of arguments at all, whatever the C library
    computes, because the second longitude is converted from the whole of
    [coord2]. *)
Theorem calculate_distance_never_returns
        (m : libm) (coord1 coord2 : value) (distance : float) :
  calculate_distance m coord1 coord2 <> Ok distance.
Proof.
  destruct (calculate_distance_raises m coord1 coord2) as [e ->].
  discriminate.
Qed.

(** On a feature collection the lookup returns a feature of the collection
    that carries the identifier when there is one, and [None] otherwise. *)
Theorem lookup_in_collection
        (data : value) (features : list value) (id : string) :
  feature_collection data features ->
  (present features id = true ->
   exists f, find_location_by_id data id = Ok f
             /\ In f features /\ feature_has_id id f = true)
  /\ (present features id = false ->
      find_location_by_id data id = Ok VNone).
Proof.
  intros Hcoll.
  rewrite (find_location_by_id_collection data features id Hcoll).
  split; intros H.
  - exists (first_with_id features id). split; [reflexivity|].
    pose proof (first_with_id_present features id H) as Hid.
    split; [|exact Hid].
    unfold first_with_id in *.
    destruct (find (feature_has_id id) features) as [f|] eqn:E.
    + exact (proj1 (find_some _ _ E)).
    + discriminate Hid.
  - now rewrite (first_with_id_absent features id H).
Qed.

(* ===================================================================== *)
(** * The route endpoint                                                   *)
(* ===================================================================== *)

(** The status of an error response is the code it was given. *)
Lemma status_error_response (msg : string) (code : Z) :
  status (error_response msg code) = code.
Proof. reflexivity. Qed.

(** Steps [get_route] through the load and the two format checks, for a
    path that splits in two. *)
Ltac enter_route Hload Hnone Hsplit :=
  unfold get_route, route_pipeline;
  rewrite Hload; cbn [bind]; rewrite Hnone;
  rewrite (str_contains_of_split "-to-" _)
    by (rewrite Hsplit; discriminate);
  cbn [negb]; rewrite Hsplit;
  cbn [List.length Nat.eqb negb nth].

Section RouteFacts.

Variable m : libm.

(** C10: the load comes first.  When it yields no dataset, every path, well
    formed or not, gets 500 with the fixed message. *)
Theorem unavailable_dataset_precedes_validation
        (file : geojson_file) (path_name : string) :
  load_geojson_data file = Ok VNone ->
  get_route m file path_name = error_response file_error 500.
Proof.
  intros H. unfold get_route, route_pipeline. rewrite H. reflexivity.
Qed.

(** C6: with a dataset loaded, a path without ["-to-"], or one that does
    not split into exactly two parts, gets 400 with the format message. *)
Theorem bad_format_rejected
        (file : geojson_file) (data : value) (path_name : string) :
  load_geojson_data file = Ok data ->
  is_none data = false ->
  str_contains "-to-" path_name = false
  \/ List.length (split "-to-" path_name) <> 2%nat ->
  get_route m file path_name = error_response format_error 400.
Proof.
  intros Hload Hnone Hbad.
  unfold get_route, route_pipeline.
  rewrite Hload; cbn [bind]; rewrite Hnone.
  destruct Hbad as [H|H].
  - rewrite H. reflexivity.
  - destruct (str_contains "-to-" path_name); [|reflexivity].
    apply Nat.eqb_neq in H. cbn [negb]. rewrite H. reflexivity.
Qed.

(** C5: with a dataset loaded, whatever it holds, a path of two parts that
    trim to the same non-empty identifier gets 400 with the same-endpoint
    message; no lookup is made. *)
Theorem same_endpoint_rejected
        (file : geojson_file) (data : value) (path_name p0 p1 : string) :
  load_geojson_data file = Ok data ->
  is_none data = false ->
  split "-to-" path_name = [p0; p1] ->
  strip p0 = strip p1 ->
  strip p0 <> "" ->
  get_route m file path_name = error_response same_error 400.
Proof.
  intros Hload Hnone Hsplit Heq Hne.
  enter_route Hload Hnone Hsplit.
  rewrite <- Heq, (truthy_str _ Hne). cbn [negb orb].
  rewrite String.eqb_refl. reflexivity.
Qed.

(** The lookups of a validated request: both run before either result is
    tested. *)
Lemma source_missing_first
      (file : geojson_file) (data : value) (features : list value)
      (path_name p0 p1 : string) :
  load_geojson_data file = Ok data ->
  feature_collection data features ->
  split "-to-" path_name = [p0; p1] ->
  strip p0 <> "" ->
  strip p1 <> "" ->
  strip p0 <> strip p1 ->
  present features (strip p0) = false ->
  get_route m file path_name
  = error_response (source_error (strip p0)) 404.
Proof.
  intros Hload Hcoll Hsplit Hs Hd Hneq Habs.
  assert (Hnone : is_none data = false).
  { destruct Hcoll as (d & -> & _). reflexivity. }
  enter_route Hload Hnone Hsplit.
  rewrite (truthy_str _ Hs), (truthy_str _ Hd). cbn [negb orb].
  apply String.eqb_neq in Hneq. rewrite Hneq.
  rewrite !(find_location_by_id_collection data features _ Hcoll).
  cbn [bind]. rewrite (first_with_id_absent _ _ Habs).
  reflexivity.
Qed.

(** C7: two valid, distinct identifiers, neither in the collection: 404
    naming the source. *)
Theorem both_missing_reports_source
        (file : geojson_file) (data : value) (features : list value)
        (path_name p0 p1 : string) :
  load_geojson_data file = Ok data ->
  feature_collection data features ->
  split "-to-" path_name = [p0; p1] ->
  strip p0 <> "" ->
  strip p1 <> "" ->
  strip p0 <> strip p1 ->
  present features (strip p0) = false ->
  present features (strip p1) = false ->
  get_route m file path_name
  = error_response (source_error (strip p0)) 404.
Proof.
  intros Hload Hcoll Hsplit Hs Hd Hneq Hsrc _.
  now apply source_missing_first with (data := data) (features := features)
                                      (p1 := p1).
Qed.

(** C1: two valid, distinct identifiers, both in the collection: the claim
    promises a 200 route of three waypoints; [get_route] answers 500 with a
    server-error message, since [generate_simple_route] raises (or, on a
    feature without coordinates, the extraction before it). *)
Theorem present_ids_get_server_error
        (file : geojson_file) (data : value) (features : list value)
        (path_name p0 p1 : string) :
  load_geojson_data file = Ok data ->
  feature_collection data features ->
  split "-to-" path_name = [p0; p1] ->
  strip p0 <> "" ->
  strip p1 <> "" ->
  strip p0 <> strip p1 ->
  present features (strip p0) = true ->
  present features (strip p1) = true ->
  exists e,
    get_route m file path_name = error_response (server_error e) 500.
Proof.
  intros Hload Hcoll Hsplit Hs Hd Hneq Hsrc Hdst.
  assert (Hnone : is_none data = false).
  { destruct Hcoll as (d & -> & _). reflexivity. }
  enter_route Hload Hnone Hsplit.
  rewrite (truthy_str _ Hs), (truthy_str _ Hd). cbn [negb orb].
  apply String.eqb_neq in Hneq. rewrite Hneq.
  rewrite !(find_location_by_id_collection data features _ Hcoll).
  cbn [bind].
  rewrite (feature_with_id_truthy _ _ (first_with_id_present _ _ Hsrc)).
  rewrite (feature_with_id_truthy _ _ (first_with_id_present _ _ Hdst)).
  cbn [negb].
  destruct (getitem_key (first_with_id features (strip p0)) "geometry")
    as [sg|e]; cbn [bind try_except]; [|now exists e].
  destruct (getitem_key sg "coordinates")
    as [sc|e]; cbn [bind try_except]; [|now exists e].
  destruct (getitem_key (first_with_id features (strip p1)) "geometry")
    as [dg|e]; cbn [bind try_except]; [|now exists e].
  destruct (getitem_key dg "coordinates")
    as [dc|e]; cbn [bind try_except]; [|now exists e].
  destruct (generate_simple_route_raises sc dc) as [e ->].
  now exists e.
Qed.

(** The handler of [get_route] at work: what the body raises is answered
    with 500. *)
Theorem route_fault_becomes_500
        (file : geojson_file) (path_name : string) (e : exn) :
  route_pipeline m file path_name = Raise e ->
  get_route m file path_name = error_response (server_error e) 500.
Proof. intros H. unfold get_route. rewrite H. reflexivity. Qed.

(** Where the body returns, the handler returns the same response. *)
Lemma route_response_passes
      (file : geojson_file) (path_name : string) (r : response) :
  route_pipeline m file path_name = Ok r ->
  get_route m file path_name = r.
Proof. intros H. unfold get_route. rewrite H. reflexivity. Qed.

(** A fault of the load itself is caught by [get_route]. *)
Lemma route_unreadable_file (class_name msg path_name : string) :
  get_route m (Unreadable class_name msg) path_name
  = error_response ("Server error: " ++ msg) 500.
Proof. reflexivity. Qed.

(** No request is answered with status 200: every request that reaches the
    geometry ends in the 500 of [generate_simple_route]'s fault, and the
    assembly of the route object is never run. *)
Theorem get_route_never_succeeds (file : geojson_file) (path_name : string) :
  status (get_route m file path_name) <> 200.
Proof.
  unfold get_route, route_pipeline.
  destruct (load_geojson_data file) as [data|e];
    cbn [bind try_except]; [|discriminate].
  destruct (is_none data); [discriminate|].
  destruct (str_contains "-to-" path_name); cbn [negb]; [|discriminate].
  destruct (Nat.eqb (List.length (split "-to-" path_name)) 2);
    cbn [negb]; [|discriminate].
  destruct (negb (truthy (VStr (strip (nth 0 (split "-to-" path_name) ""))))
            || negb (truthy (VStr (strip (nth 1 (split "-to-" path_name) "")))));
    [discriminate|].
  destruct (String.eqb _ _); [discriminate|].
  destruct (find_location_by_id data _) as [source_location|e];
    cbn [bind try_except]; [|discriminate].
  destruct (find_location_by_id data _) as [dest_location|e];
    cbn [bind try_except]; [|discriminate].
  destruct (truthy source_location); cbn [negb]; [|discriminate].
  destruct (truthy dest_location); cbn [negb]; [|discriminate].
  destruct (getitem_key source_location "geometry") as [sg|e];
    cbn [bind try_except]; [|discriminate].
  destruct (getitem_key sg "coordinates") as [sc|e];
    cbn [bind try_except]; [|discriminate].
  destruct (getitem_key dest_location "geometry") as [dg|e];
    cbn [bind try_except]; [|discriminate].
  destruct (getitem_key dg "coordinates") as [dc|e];
    cbn [bind try_except]; [|discriminate].
  destruct (generate_simple_route_raises sc dc) as [e ->].
  discriminate.
Qed.

End RouteFacts.

(* ===================================================================== *)
(** * The statements at concrete requests                                  *)
(* ===================================================================== *)

Lemma campus_collection : feature_collection campus_data campus_features.
Proof.
  exists [("type", VStr "FeatureCollection");
          ("features", VList campus_features)].
  repeat split. repeat constructor.
Defined.

(** The specification's example request: both features exist, and the
    answer is the 500 of the [TypeError] in [generate_simple_route]. *)
Example route_loc1_to_loc2 (m : libm) :
  get_route m campus "loc1-to-loc2"
  = error_response
      "Server error: unsupported operand type(s) for +: 'float' and 'list'"
      500.
Proof. reflexivity. Qed.

Example route_loc1_to_loc1 (m : libm) :
  get_route m campus "loc1-to-loc1" = error_response same_error 400.
Proof. reflexivity. Qed.

Example route_without_separator (m : libm) :
  get_route m campus "loc1" = error_response format_error 400.
Proof. reflexivity. Qed.

Example route_destination_missing (m : libm) :
  get_route m campus " loc1 -to-loc3"
  = error_response "Destination location 'loc3' not found" 404.
Proof. reflexivity. Qed.

(** A document that is no collection: a number is not a container, and the
    lookup's membership test raises. *)
Example route_on_number_document (m : libm) :
  get_route m (Json (VInt 5)) "a-to-b"
  = error_response "Server error: argument of type 'int' is not iterable" 500.
Proof. reflexivity. Qed.

(** An empty object holds no feature. *)
Example route_on_empty_object (m : libm) :
  get_route m (Json (VDict [])) "a-to-b"
  = error_response "Source location 'a' not found" 404.
Proof. reflexivity. Qed.

Lemma unavailable_dataset_precedes_validation_witness :
  load_geojson_data Absent = Ok VNone
  /\ get_route small_angle_libm Absent "loc1-to-loc1"
     = error_response file_error 500.
Proof.
  split; [reflexivity|].
  apply (unavailable_dataset_precedes_validation
           small_angle_libm Absent "loc1-to-loc1").
  reflexivity.
Defined.

Lemma bad_format_rejected_witness :
  List.length (split "-to-" "a-to-b-to-c") <> 2%nat
  /\ get_route small_angle_libm campus "a-to-b-to-c"
     = error_response format_error 400.
Proof.
  split; [vm_compute; discriminate|].
  apply (bad_format_rejected small_angle_libm campus campus_data "a-to-b-to-c").
  - reflexivity.
  - reflexivity.
  - right. vm_compute. discriminate.
Defined.

Lemma same_endpoint_rejected_witness :
  present campus_features "nowhere" = false
  /\ get_route small_angle_libm campus "nowhere-to- nowhere"
     = error_response same_error 400.
Proof.
  split; [reflexivity|].
  apply (same_endpoint_rejected small_angle_libm campus campus_data
           "nowhere-to- nowhere" "nowhere" " nowhere").
  - reflexivity.
  - reflexivity.
  - reflexivity.
  - reflexivity.
  - vm_compute. discriminate.
Defined.

Lemma both_missing_reports_source_witness :
  present campus_features "unknownA" = false
  /\ present campus_features "unknownB" = false
  /\ get_route small_angle_libm campus "unknownA-to-unknownB"
     = error_response "Source location 'unknownA' not found" 404.
Proof.
  split; [reflexivity|]. split; [reflexivity|].
  apply (both_missing_reports_source small_angle_libm campus campus_data
           campus_features "unknownA-to-unknownB" "unknownA" "unknownB").
  - reflexivity.
  - exact campus_collection.
  - reflexivity.
  - vm_compute. discriminate.
  - vm_compute. discriminate.
  - vm_compute. discriminate.
  - reflexivity.
  - reflexivity.
Defined.

Lemma present_ids_get_server_error_witness :
  present campus_features "loc1" = true
  /\ present campus_features "loc2" = true
  /\ exists e,
       get_route small_angle_libm campus "loc1-to-loc2"
       = error_response (server_error e) 500.
Proof.
  split; [reflexivity|]. split; [reflexivity|].
  apply (present_ids_get_server_error small_angle_libm campus campus_data
           campus_features "loc1-to-loc2" "loc1" "loc2").
  - reflexivity.
  - exact campus_collection.
  - reflexivity.
  - vm_compute. discriminate.
  - vm_compute. discriminate.
  - vm_compute. discriminate.
  - reflexivity.
  - reflexivity.
Defined.

Lemma lookup_in_collection_witness :
  (present campus_features "loc2" = true ->
   exists f, find_location_by_id campus_data "loc2" = Ok f
             /\ In f campus_features /\ feature_has_id "loc2" f = true)
  /\ (present campus_features "loc2" = false ->
      find_location_by_id campus_data "loc2" = Ok VNone).
Proof.
  apply (lookup_in_collection campus_data campus_features "loc2").
  exact campus_collection.
Defined.

(* ===================================================================== *)
(** * More on the path: what the split keeps                               *)
(* ===================================================================== *)

Section SplitFacts.

Variable sep : string.
Hypothesis sep_nonempty : sep <> "".

Lemma prefix_drop (p s : string) :
  String.prefix p s = true -> p ++ drop (String.length p) s = s.
Proof.
  revert s. induction p as [|a p IH]; intros s H; [reflexivity|].
  destruct s as [|b s]; [discriminate H|].
  cbn [String.prefix] in H.
  destruct (ascii_dec a b) as [->|]; [|discriminate H].
  cbn [String.length drop append]. now rewrite (IH s H).
Qed.

Lemma prefix_app (p a b : string) :
  String.prefix p a = true -> String.prefix p (a ++ b) = true.
Proof.
  revert a. induction p as [|c p IH]; intros a H.
  - now destruct (a ++ b).
  - destruct a as [|d a]; [discriminate H|].
    cbn [String.prefix append] in *.
    destruct (ascii_dec c d); [now apply IH|discriminate H].
Qed.

Lemma join_cons_char (c : ascii) (part : string) (parts : list string) :
  join sep (String c part :: parts) = String c (join sep (part :: parts)).
Proof. now destruct parts. Qed.

Lemma join_head (part : string) (parts : list string) :
  exists rest, join sep (part :: parts) = part ++ rest.
Proof.
  destruct parts as [|q parts].
  - exists "". cbn [join]. induction part as [|c part IH]; [reflexivity|].
    cbn [append]. now rewrite <- IH.
  - now exists (sep ++ join sep (q :: parts)).
Qed.

Lemma split_from_nonempty (s : string) :
  forall skip, split_from sep s skip <> [].
Proof.
  induction s as [|c s IH]; intros skip; [discriminate|].
  destruct skip as [|k]; [|exact (IH k)].
  cbn [split_from].
  destruct (String.prefix sep (String c s)); [discriminate|].
  destruct (split_from sep s 0); discriminate.
Qed.

(** Joining the parts restores the text that was split; with [skip]
    characters of a separator pending, the text after them. *)
Lemma join_split_from (s : string) :
  forall skip, join sep (split_from sep s skip) = drop skip s.
Proof.
  induction s as [|c s IH]; intros skip.
  - now destruct skip.
  - destruct skip as [|k]; [|exact (IH k)].
    cbn [split_from drop].
    destruct (String.prefix sep (String c s)) eqn:Hp.
    + pose proof (split_from_nonempty s (Nat.pred (String.length sep))) as Hne.
      pose proof (IH (Nat.pred (String.length sep))) as IHk.
      destruct (split_from sep s (Nat.pred (String.length sep)))
        as [|q parts]; [now elim Hne|].
      change (join sep ("" :: q :: parts)) with (sep ++ join sep (q :: parts)).
      rewrite IHk.
      destruct sep as [|a sep']; [now elim sep_nonempty|].
      exact (prefix_drop (String a sep') (String c s) Hp).
    + specialize (IH 0%nat). cbn [drop] in IH.
      destruct (split_from sep s 0) as [|part parts].
      * cbn [join] in IH |- *. now rewrite <- IH.
      * rewrite join_cons_char. now rewrite IH.
Qed.

Lemma join_split (s : string) : join sep (split sep s) = s.
Proof. exact (join_split_from s 0). Qed.

Lemma sep_not_in_empty : str_contains sep "" = false.
Proof.
  destruct sep; [now elim sep_nonempty|reflexivity].
Qed.

(** No part holds a separator: a part ends at the leftmost occurrence. *)
Lemma split_from_parts_clean (s : string) :
  forall skip,
    Forall (fun p => str_contains sep p = false) (split_from sep s skip).
Proof.
  induction s as [|c s IH]; intros skip.
  - constructor; [exact sep_not_in_empty|constructor].
  - destruct skip as [|k]; [|exact (IH k)].
    cbn [split_from].
    destruct (String.prefix sep (String c s)) eqn:Hp.
    + constructor; [exact sep_not_in_empty|apply IH].
    + pose proof (IH 0%nat) as Hclean.
      pose proof (join_split_from s 0) as Hjoin. cbn [drop] in Hjoin.
      destruct (split_from sep s 0) as [|part parts].
      * constructor; [|constructor].
        cbn [join] in Hjoin. subst s.
        cbn [str_contains]. rewrite Hp. exact sep_not_in_empty.
      * apply Forall_cons_iff in Hclean as [Hpart Hparts].
        constructor; [|exact Hparts].
        cbn [str_contains]. rewrite Hpart, orb_false_r.
        destruct (String.prefix sep (String c part)) eqn:Hq; [|reflexivity].
        destruct (join_head part parts) as [rest Hrest].
        rewrite Hrest in Hjoin. subst s.
        pose proof (prefix_app sep (String c part) rest Hq) as Hfull.
        cbn [append] in Hfull. congruence.
Qed.

Lemma str_contains_app_r (pre t : string) :
  str_contains sep t = true -> str_contains sep (pre ++ t) = true.
Proof.
  intros H. induction pre as [|c pre IH]; [exact H|].
  cbn [append str_contains]. rewrite IH. apply orb_true_r.
Qed.

Lemma str_contains_app_l (t post : string) :
  str_contains sep t = true -> str_contains sep (t ++ post) = true.
Proof.
  induction t as [|c t IH]; intros H.
  - rewrite sep_not_in_empty in H. discriminate H.
  - cbn [append str_contains] in *.
    apply orb_true_iff in H as [H|H].
    + pose proof (prefix_app sep (String c t) post H) as Hp.
      cbn [append] in Hp. now rewrite Hp.
    + rewrite (IH H). apply orb_true_r.
Qed.

Lemma lstrip_suffix (s : string) : exists pre, s = pre ++ lstrip s.
Proof.
  induction s as [|c s [pre IH]].
  - now exists "".
  - cbn [lstrip]. destruct (isspace c).
    + exists (String c pre). cbn [append]. now f_equal.
    + now exists "".
Qed.

Lemma rstrip_prefix (s : string) : exists post, s = rstrip s ++ post.
Proof.
  induction s as [|c s [post IH]].
  - now exists "".
  - cbn [rstrip]. destruct (rstrip s) as [|a t].
    + destruct (isspace c).
      * now exists (String c s).
      * exists s. reflexivity.
    + exists post. cbn [append] in *. now f_equal.
Qed.

Lemma strip_keeps_clean (s : string) :
  str_contains sep s = false -> str_contains sep (strip s) = false.
Proof.
  intros H. destruct (str_contains sep (strip s)) eqn:E; [|reflexivity].
  unfold strip in E.
  destruct (rstrip_prefix (lstrip s)) as [post Hpost].
  destruct (lstrip_suffix s) as [pre Hpre].
  apply (str_contains_app_l _ post) in E. rewrite <- Hpost in E.
  apply (str_contains_app_r pre) in E. rewrite <- Hpre in E.
  congruence.
Qed.

End SplitFacts.

Lemma separator_nonempty : "-to-" <> "".
Proof. discriminate. Qed.

(** A path that passes the format check is its two parts with one ["-to-"]
    between them: the split loses nothing of the path. *)
Theorem accepted_path_shape (path_name p0 p1 : string) :
  split "-to-" path_name = [p0; p1] ->
  path_name = p0 ++ "-to-" ++ p1.
Proof.
  intros H.
  pose proof (join_split "-to-" separator_nonempty path_name) as J.
  rewrite H in J. symmetry. exact J.
Qed.

(** The identifiers a request is resolved with never hold ["-to-"]: a
    feature whose id contains the separator cannot be addressed. *)
Theorem resolved_ids_hold_no_separator (path_name p0 p1 : string) :
  split "-to-" path_name = [p0; p1] ->
  str_contains "-to-" (strip p0) = false
  /\ str_contains "-to-" (strip p1) = false.
Proof.
  intros H.
  pose proof (split_from_parts_clean "-to-" separator_nonempty path_name 0)
    as Hclean.
  fold (split "-to-" path_name) in Hclean. rewrite H in Hclean.
  apply Forall_cons_iff in Hclean as [H0 Hclean].
  apply Forall_cons_iff in Hclean as [H1 _].
  split; now apply strip_keeps_clean.
Qed.

(* ===================================================================== *)
(** * More on the lookup                                                   *)
(* ===================================================================== *)

Lemma scan_features_sound (features : list value) (id : string) (f : value) :
  scan_features features id = Ok f ->
  f = VNone \/ feature_has_id id f = true.
Proof.
  induction features as [|x rest IH]; cbn [scan_features].
  - intros [= <-]. now left.
  - destruct x as [| | | | | |d]; try discriminate.
    cbn [get]. destruct (assoc "id" d) as [v|] eqn:Hid; cbn [bind eq_str].
    + destruct (eq_str v id) eqn:Heq; [|exact IH].
      intros [= <-]. right. cbn [feature_has_id]. now rewrite Hid.
    + exact IH.
Qed.

(** Whatever the document, a lookup that returns hands back [None] or an
    object whose ["id"] is the requested string, character for character. *)
Theorem lookup_sound (data : value) (id : string) (f : value) :
  find_location_by_id data id = Ok f ->
  f = VNone \/ (feature_has_id id f = true /\ truthy f = true).
Proof.
  unfold find_location_by_id.
  destruct (truthy data); cbn [negb]; [|intros [= <-]; now left].
  destruct (contains "features" data) as [has|e]; cbn [bind]; [|discriminate].
  destruct has; cbn [negb]; [|intros [= <-]; now left].
  destruct (getitem_key data "features") as [fs|e]; cbn [bind]; [|discriminate].
  destruct (iter fs) as [features|e]; cbn [bind]; [|discriminate].
  intros H. destruct (scan_features_sound features id f H) as [->|Hid].
  - now left.
  - right. split; [exact Hid|exact (feature_with_id_truthy id f Hid)].
Qed.

Lemma scan_features_skips (pre rest : list value) (id : string) :
  Forall (fun f => is_dict f = true) pre ->
  present pre id = false ->
  scan_features (pre ++ rest) id = scan_features rest id.
Proof.
  unfold present.
  induction 1 as [|x pre Hx _ IH]; intros Habs; [reflexivity|].
  cbn [existsb] in Habs. apply orb_false_iff in Habs as [Hid Habs].
  destruct x as [| | | | | |d]; try discriminate Hx.
  cbn [app scan_features get feature_has_id] in *.
  destruct (assoc "id" d) as [v|]; cbn [bind eq_str].
  - rewrite Hid. exact (IH Habs).
  - exact (IH Habs).
Qed.

Lemma find_in_features (d : list (string * value)) (features : list value)
      (id : string) :
  assoc "features" d = Some (VList features) ->
  find_location_by_id (VDict d) id = scan_features features id.
Proof.
  intros Hfs. unfold find_location_by_id.
  assert (Ht : truthy (VDict d) = true).
  { destruct d; [discriminate Hfs|reflexivity]. }
  rewrite Ht. cbn [negb contains getitem_key bind].
  rewrite Hfs. reflexivity.
Qed.

(** The scan stops at the first feature carrying the id: it is the one
    returned, whichever entries follow it, be they duplicates of the id or
    no objects at all. *)
Theorem lookup_stops_at_first_match
        (d : list (string * value)) (pre post : list value) (f : value)
        (id : string) :
  assoc "features" d = Some (VList (pre ++ f :: post)) ->
  Forall (fun x => is_dict x = true) pre ->
  present pre id = false ->
  feature_has_id id f = true ->
  find_location_by_id (VDict d) id = Ok f.
Proof.
  intros Hfs Hpre Habs Hid.
  rewrite (find_in_features d _ id Hfs).
  rewrite (scan_features_skips pre (f :: post) id Hpre Habs).
  destruct f as [| | | | | |fd]; try discriminate Hid.
  cbn [scan_features get feature_has_id] in *.
  destruct (assoc "id" fd) as [v|]; [|discriminate Hid].
  cbn [bind]. now rewrite Hid.
Qed.

(** An entry that is no object, met before any match, makes the lookup
    raise [AttributeError]: the scan calls [.get] on it. *)
Theorem lookup_fault_before_match
        (d : list (string * value)) (pre post : list value) (x : value)
        (id : string) :
  assoc "features" d = Some (VList (pre ++ x :: post)) ->
  Forall (fun f => is_dict f = true) pre ->
  present pre id = false ->
  is_dict x = false ->
  find_location_by_id (VDict d) id
  = raise AttributeError
          ("'" ++ type_name x ++ "' object has no attribute 'get'").
Proof.
  intros Hfs Hpre Habs Hx.
  rewrite (find_in_features d _ id Hfs).
  rewrite (scan_features_skips pre (x :: post) id Hpre Habs).
  destruct x; try discriminate Hx; reflexivity.
Qed.

(* ===================================================================== *)
(** * More on the endpoints                                                *)
(* ===================================================================== *)

(** One step of the case analysis of a handler body: the geometry, which
    always raises; a call that may raise; a test. *)
Ltac route_step :=
  match goal with
  | |- context [bind (generate_simple_route ?s ?d) _] =>
      let e := fresh "e" in
      destruct (generate_simple_route_raises s d) as [e ->]
  | |- context [bind ?c _] =>
      let H := fresh "Hcall" in destruct c eqn:H
  | |- context [if ?b then _ else _] =>
      let H := fresh "Htest" in destruct b eqn:H
  end;
  cbn [bind try_except negb].

Ltac route_cases := unfold get_route, route_pipeline; repeat route_step.

(** What the dump endpoint serves with status 200 is the parsed document
    itself; its only other answer is the fixed 500. *)
Theorem get_geojson_serves_document (file : geojson_file) (r : response) :
  get_geojson file = Ok r ->
  (status r = 200 /\ file = Json (body r) /\ is_none (body r) = false)
  \/ (r = error_response file_error 500 /\ load_geojson_data file = Ok VNone).
Proof.
  unfold get_geojson.
  destruct file as [|c msg| |v]; cbn [load_geojson_data open_and_parse raise
                                       exn_cls bind is_none].
  - intros [= <-]. now right.
  - discriminate.
  - intros [= <-]. now right.
  - destruct (is_none v) eqn:Hv; intros [= <-].
    + right. split; [reflexivity|]. now destruct v.
    + left. now repeat split.
Qed.

Section EndpointFacts.

Variable m : libm.

(** Every answer of the route endpoint is an error object with status 400,
    404 or 500. *)
Theorem get_route_answers_error (file : geojson_file) (path_name : string) :
  exists msg code,
    get_route m file path_name = error_response msg code
    /\ (code = 400 \/ code = 404 \/ code = 500).
Proof.
  route_cases; eexists; eexists; (split; [reflexivity|]); auto.
Qed.

(** The two endpoints report a missing dataset in the same cases: the
    route endpoint answers the fixed 500 exactly when the dump endpoint
    does, whatever the path. *)
Theorem endpoints_agree_on_missing_dataset
        (file : geojson_file) (path_name : string) :
  get_route m file path_name = error_response file_error 500
  <-> get_geojson file = Ok (error_response file_error 500).
Proof.
  split.
  - unfold get_geojson.
    route_cases; try discriminate; reflexivity.
  - unfold get_geojson, get_route, route_pipeline.
    destruct (load_geojson_data file) as [data|e]; cbn [bind]; [|discriminate].
    destruct (is_none data); [reflexivity|discriminate].
Qed.

(** The C library plays no part in any answer. *)
Theorem get_route_ignores_libm
        (m' : libm) (file : geojson_file) (path_name : string) :
  get_route m file path_name = get_route m' file path_name.
Proof.
  route_cases; reflexivity.
Qed.

End EndpointFacts.

Section RequestFacts.

Variable m : libm.

(** With a dataset loaded, a path of two parts one of which trims to
    nothing gets 400 with the empty-id message, also when both do and so
    are equal: the emptiness test comes before the sameness test. *)
Theorem empty_id_rejected
        (file : geojson_file) (data : value) (path_name p0 p1 : string) :
  load_geojson_data file = Ok data ->
  is_none data = false ->
  split "-to-" path_name = [p0; p1] ->
  strip p0 = "" \/ strip p1 = "" ->
  get_route m file path_name = error_response empty_error 400.
Proof.
  intros Hload Hnone Hsplit Hempty.
  enter_route Hload Hnone Hsplit.
  destruct Hempty as [-> | ->]; cbn [truthy String.eqb negb orb].
  - reflexivity.
  - rewrite orb_true_r. reflexivity.
Qed.

(** Two valid, distinct identifiers, the source in the collection and the
    destination not: 404 naming the destination. *)
Theorem destination_missing_reported
        (file : geojson_file) (data : value) (features : list value)
        (path_name p0 p1 : string) :
  load_geojson_data file = Ok data ->
  feature_collection data features ->
  split "-to-" path_name = [p0; p1] ->
  strip p0 <> "" ->
  strip p1 <> "" ->
  strip p0 <> strip p1 ->
  present features (strip p0) = true ->
  present features (strip p1) = false ->
  get_route m file path_name
  = error_response (dest_error (strip p1)) 404.
Proof.
  intros Hload Hcoll Hsplit Hs Hd Hneq Hsrc Hdst.
  assert (Hnone : is_none data = false).
  { destruct Hcoll as (d & -> & _). reflexivity. }
  enter_route Hload Hnone Hsplit.
  rewrite (truthy_str _ Hs), (truthy_str _ Hd). cbn [negb orb].
  apply String.eqb_neq in Hneq. rewrite Hneq.
  rewrite !(find_location_by_id_collection data features _ Hcoll).
  cbn [bind].
  rewrite (feature_with_id_truthy _ _ (first_with_id_present _ _ Hsrc)).
  rewrite (first_with_id_absent _ _ Hdst).
  reflexivity.
Qed.

(** A document that is not [None] but counts as false ([{}], [[]], [0],
    [""], [false]) acts as a dataset without locations: every valid request
    gets 404 naming the source, and nothing raises. *)
Theorem empty_document_has_no_location
        (file : geojson_file) (data : value) (path_name p0 p1 : string) :
  load_geojson_data file = Ok data ->
  is_none data = false ->
  truthy data = false ->
  split "-to-" path_name = [p0; p1] ->
  strip p0 <> "" ->
  strip p1 <> "" ->
  strip p0 <> strip p1 ->
  get_route m file path_name
  = error_response (source_error (strip p0)) 404.
Proof.
  intros Hload Hnone Hfalse Hsplit Hs Hd Hneq.
  enter_route Hload Hnone Hsplit.
  rewrite (truthy_str _ Hs), (truthy_str _ Hd). cbn [negb orb].
  apply String.eqb_neq in Hneq. rewrite Hneq.
  unfold find_location_by_id. rewrite Hfalse.
  reflexivity.
Qed.

(** Only the trimmed parts of the path count: two paths whose parts trim
    to the same identifiers get the same answer. *)
Theorem surrounding_whitespace_ignored
        (file : geojson_file) (path_name path_name' p0 p1 q0 q1 : string) :
  split "-to-" path_name = [p0; p1] ->
  split "-to-" path_name' = [q0; q1] ->
  strip p0 = strip q0 ->
  strip p1 = strip q1 ->
  get_route m file path_name = get_route m file path_name'.
Proof.
  intros Hp Hq H0 H1.
  unfold get_route, route_pipeline.
  destruct (load_geojson_data file) as [data|e]; cbn [bind]; [|reflexivity].
  destruct (is_none data); [reflexivity|].
  rewrite (str_contains_of_split "-to-" path_name)
    by (rewrite Hp; discriminate).
  rewrite (str_contains_of_split "-to-" path_name')
    by (rewrite Hq; discriminate).
  cbn [negb]. rewrite Hp, Hq.
  cbn [List.length Nat.eqb negb nth].
  rewrite H0, H1. reflexivity.
Qed.

(** A source feature without a ["geometry"] member: the extraction raises
    [KeyError], answered with 500 and the key as the message. *)
Theorem missing_geometry_is_server_error
        (file : geojson_file) (data : value) (features : list value)
        (path_name p0 p1 : string) (fd : list (string * value)) :
  load_geojson_data file = Ok data ->
  feature_collection data features ->
  split "-to-" path_name = [p0; p1] ->
  strip p0 <> "" ->
  strip p1 <> "" ->
  strip p0 <> strip p1 ->
  present features (strip p0) = true ->
  present features (strip p1) = true ->
  first_with_id features (strip p0) = VDict fd ->
  assoc "geometry" fd = None ->
  get_route m file path_name
  = error_response "Server error: 'geometry'" 500.
Proof.
  intros Hload Hcoll Hsplit Hs Hd Hneq Hsrc Hdst Hf Hgeo.
  assert (Hnone : is_none data = false).
  { destruct Hcoll as (d & -> & _). reflexivity. }
  enter_route Hload Hnone Hsplit.
  rewrite (truthy_str _ Hs), (truthy_str _ Hd). cbn [negb orb].
  apply String.eqb_neq in Hneq. rewrite Hneq.
  rewrite !(find_location_by_id_collection data features _ Hcoll).
  cbn [bind].
  rewrite (feature_with_id_truthy _ _ (first_with_id_present _ _ Hsrc)).
  rewrite (feature_with_id_truthy _ _ (first_with_id_present _ _ Hdst)).
  cbn [negb]. rewrite Hf. cbn [getitem_key]. rewrite Hgeo.
  reflexivity.
Qed.

End RequestFacts.

(* ===================================================================== *)
(** * The further statements at concrete requests                          *)
(* ===================================================================== *)

Lemma bare_collection : feature_collection bare_data bare_features.
Proof.
  exists [("features", VList bare_features)].
  repeat split. repeat constructor.
Defined.

Lemma accepted_path_shape_witness :
  split "-to-" "a-to-to-b" = ["a"; "to-b"]
  /\ "a-to-to-b" = "a" ++ "-to-" ++ "to-b".
Proof.
  split; [reflexivity|].
  apply (accepted_path_shape "a-to-to-b" "a" "to-b"). reflexivity.
Defined.

Lemma resolved_ids_hold_no_separator_witness :
  str_contains "-to-" (strip " a") = false
  /\ str_contains "-to-" (strip "to-b ") = false.
Proof.
  apply (resolved_ids_hold_no_separator " a-to-to-b " " a" "to-b ").
  reflexivity.
Defined.

Lemma lookup_sound_witness :
  point_feature "b" "First" 77.5 13.5 = VNone
  \/ (feature_has_id "b" (point_feature "b" "First" 77.5 13.5) = true
      /\ truthy (point_feature "b" "First" 77.5 13.5) = true).
Proof.
  apply (lookup_sound ragged_data "b" (point_feature "b" "First" 77.5 13.5)).
  reflexivity.
Defined.

Lemma lookup_stops_at_first_match_witness :
  find_location_by_id ragged_data "b" = Ok (point_feature "b" "First" 77.5 13.5).
Proof.
  apply (lookup_stops_at_first_match
           [("features", VList ragged_features)]
           [point_feature "a" "Hall" 77.0 13.0]
           [VInt 5; point_feature "b" "Second" 78.0 14.0]
           (point_feature "b" "First" 77.5 13.5) "b").
  - reflexivity.
  - repeat constructor.
  - reflexivity.
  - reflexivity.
Defined.

Lemma lookup_fault_before_match_witness :
  find_location_by_id ragged_data "c"
  = raise AttributeError "'int' object has no attribute 'get'".
Proof.
  apply (lookup_fault_before_match
           [("features", VList ragged_features)]
           [point_feature "a" "Hall" 77.0 13.0;
            point_feature "b" "First" 77.5 13.5]
           [point_feature "b" "Second" 78.0 14.0]
           (VInt 5) "c").
  - reflexivity.
  - repeat constructor.
  - reflexivity.
  - reflexivity.
Defined.

Lemma get_geojson_serves_document_witness :
  (status (jsonify campus_data) = 200
   /\ campus = Json (body (jsonify campus_data))
   /\ is_none (body (jsonify campus_data)) = false)
  \/ (jsonify campus_data = error_response file_error 500
      /\ load_geojson_data campus = Ok VNone).
Proof.
  apply (get_geojson_serves_document campus (jsonify campus_data)).
  reflexivity.
Defined.

Lemma empty_id_rejected_witness :
  strip " " = ""
  /\ get_route small_angle_libm campus " -to- "
     = error_response empty_error 400.
Proof.
  split; [reflexivity|].
  apply (empty_id_rejected small_angle_libm campus campus_data
           " -to- " " " " ").
  - reflexivity.
  - reflexivity.
  - reflexivity.
  - left. reflexivity.
Defined.

Lemma destination_missing_reported_witness :
  present campus_features "loc1" = true
  /\ present campus_features "loc3" = false
  /\ get_route small_angle_libm campus "loc1-to-loc3"
     = error_response "Destination location 'loc3' not found" 404.
Proof.
  split; [reflexivity|]. split; [reflexivity|].
  apply (destination_missing_reported small_angle_libm campus campus_data
           campus_features "loc1-to-loc3" "loc1" "loc3").
  - reflexivity.
  - exact campus_collection.
  - reflexivity.
  - vm_compute. discriminate.
  - vm_compute. discriminate.
  - vm_compute. discriminate.
  - reflexivity.
  - reflexivity.
Defined.

Lemma empty_document_has_no_location_witness :
  truthy (VList []) = false
  /\ get_route small_angle_libm (Json (VList [])) "loc1-to-loc2"
     = error_response "Source location 'loc1' not found" 404.
Proof.
  split; [reflexivity|].
  apply (empty_document_has_no_location small_angle_libm (Json (VList []))
           (VList []) "loc1-to-loc2" "loc1" "loc2").
  - reflexivity.
  - reflexivity.
  - reflexivity.
  - reflexivity.
  - vm_compute. discriminate.
  - vm_compute. discriminate.
  - vm_compute. discriminate.
Defined.

Lemma surrounding_whitespace_ignored_witness :
  get_route small_angle_libm campus " loc1 -to- loc3 "
  = get_route small_angle_libm campus "loc1-to-loc3".
Proof.
  apply (surrounding_whitespace_ignored small_angle_libm campus
           " loc1 -to- loc3 " "loc1-to-loc3" " loc1 " " loc3 " "loc1" "loc3");
    reflexivity.
Defined.

Lemma missing_geometry_is_server_error_witness :
  present bare_features "loc1" = true
  /\ get_route small_angle_libm (Json bare_data) "loc1-to-loc2"
     = error_response "Server error: 'geometry'" 500.
Proof.
  split; [reflexivity|].
  apply (missing_geometry_is_server_error small_angle_libm (Json bare_data)
           bare_data bare_features "loc1-to-loc2" "loc1" "loc2"
           [("type", VStr "Feature"); ("id", VStr "loc1")]).
  - reflexivity.
  - exact bare_collection.
  - reflexivity.
  - vm_compute. discriminate.
  - vm_compute. discriminate.
  - vm_compute. discriminate.
  - reflexivity.
  - reflexivity.
  - reflexivity.
  - reflexivity.
Defined.

(* ===================================================================== *)
(** * More on the geometry                                                 *)
(* ===================================================================== *)

(** Source coordinates that start with a number, of whatever numeric type
    and however many items follow, and destination coordinates that are a
    list: the sum in the first midpoint coordinate raises [TypeError]
    naming the number's type and [list]. *)
Theorem generate_simple_route_number_fault
        (x : value) (n : number) (rest dest_items : list value) :
  as_number x = Some n ->
  generate_simple_route (VList (x :: rest)) (VList dest_items)
  = raise TypeError ("unsupported operand type(s) for +: '"
                     ++ type_name x ++ "' and 'list'").
Proof.
  intros Hx. unfold generate_simple_route.
  cbn [getitem_idx nth_error bind].
  assert (Hadd : add x (VList dest_items) = unsupported "+" x (VList dest_items)).
  { destruct x; try discriminate Hx; reflexivity. }
  rewrite Hadd. reflexivity.
Qed.

(** When all that precedes it succeeds (both coordinates of [coord1] and
    the latitude of [coord2] convert to radians), the conversion of the
    second longitude raises [TypeError] naming the type of [coord2]. *)
Theorem calculate_distance_longitude_fault
        (m : libm) (coord1 coord2 c11 c10 c21 : value)
        (lat1 lon1 lat2 : float) :
  getitem_idx coord1 1 = Ok c11 -> radians c11 = Ok lat1 ->
  getitem_idx coord1 0 = Ok c10 -> radians c10 = Ok lon1 ->
  getitem_idx coord2 1 = Ok c21 -> radians c21 = Ok lat2 ->
  calculate_distance m coord1 coord2
  = raise TypeError ("must be real number, not " ++ type_name coord2).
Proof.
  intros H11 Hlat1 H10 Hlon1 H21 Hlat2.
  unfold calculate_distance.
  rewrite H11; cbn [bind]. rewrite Hlat1; cbn [bind].
  rewrite H10; cbn [bind]. rewrite Hlon1; cbn [bind].
  rewrite H21; cbn [bind]. rewrite Hlat2; cbn [bind].
  rewrite (radians_not_number coord2 (getitem_idx_not_number _ _ _ H21)).
  reflexivity.
Qed.

Lemma generate_simple_route_number_fault_witness :
  generate_simple_route (VList [VInt 77; VInt 13; VInt 900])
                        (VList [VFloat 77.5; VFloat 13.5])
  = raise TypeError "unsupported operand type(s) for +: 'int' and 'list'".
Proof.
  apply (generate_simple_route_number_fault
           (VInt 77) (NInt 77) [VInt 13; VInt 900]
           [VFloat 77.5; VFloat 13.5]).
  reflexivity.
Defined.

Lemma calculate_distance_longitude_fault_witness :
  calculate_distance small_angle_libm
                     (VList [VInt 0; VInt 0]) (VList [VInt 0; VInt 0])
  = raise TypeError "must be real number, not list".
Proof.
  apply (calculate_distance_longitude_fault small_angle_libm
           (VList [VInt 0; VInt 0]) (VList [VInt 0; VInt 0])
           (VInt 0) (VInt 0) (VInt 0) 0%float 0%float 0%float);
    reflexivity.
Defined.

(* ===================================================================== *)
(** * Faults of the route endpoint, stage by stage                         *)
(* ===================================================================== *)

(** Steps [get_route] through the load and all checks of an accepted
    request, up to the lookups. *)
Ltac enter_accepted Hload Hnone Hacc :=
  let p0 := fresh "p0" in
  let p1 := fresh "p1" in
  let Hsplit := fresh "Hsplit" in
  let Hs := fresh "Hs" in
  let Hd := fresh "Hd" in
  let Hneq := fresh "Hneq" in
  destruct Hacc as (p0 & p1 & Hsplit & -> & -> & Hs & Hd & Hneq);
  enter_route Hload Hnone Hsplit;
  rewrite (truthy_str _ Hs), (truthy_str _ Hd); cbn [negb orb];
  apply String.eqb_neq in Hneq; rewrite Hneq.

Section FaultFacts.

Variable m : libm.

(** C4: a fault at any stage of a request (the load, either lookup, either
    coordinate extraction, the geometry) does not leave [get_route]: the
    answer is status 500 with the object
    [{"error": "Server error: " + str(e)}]. *)
Theorem stage_fault_caught
        (file : geojson_file) (path_name : string) (e : exn) :
  stage_fault file path_name e ->
  get_route m file path_name
  = mkResponse (VDict [("error", VStr ("Server error: " ++ exn_str e))]) 500.
Proof.
  intros [ Hraise
         | data src dst Hload Hnone Hacc Hraise
         | data src dst sl Hload Hnone Hacc Hsl Hraise
         | data src dst sl dl Hload Hnone Hacc Hsl Hdl Htl Htd Hraise
         | data src dst sl dl sc Hload Hnone Hacc Hsl Hdl Htl Htd Hsc Hraise
         | data src dst sl dl sc dc Hload Hnone Hacc Hsl Hdl Htl Htd Hsc Hdc
                Hraise ].
  - unfold get_route, route_pipeline. rewrite Hraise. reflexivity.
  - enter_accepted Hload Hnone Hacc.
    rewrite Hraise. reflexivity.
  - enter_accepted Hload Hnone Hacc.
    rewrite Hsl; cbn [bind]. rewrite Hraise. reflexivity.
  - enter_accepted Hload Hnone Hacc.
    rewrite Hsl, Hdl; cbn [bind]. rewrite Htl, Htd; cbn [negb].
    unfold coordinates_of in Hraise.
    destruct (getitem_key sl "geometry") as [sg|e0]; cbn [bind] in *.
    + rewrite Hraise. reflexivity.
    + injection Hraise as ->. reflexivity.
  - enter_accepted Hload Hnone Hacc.
    rewrite Hsl, Hdl; cbn [bind]. rewrite Htl, Htd; cbn [negb].
    unfold coordinates_of in Hsc, Hraise.
    destruct (getitem_key sl "geometry") as [sg|e0];
      cbn [bind] in *; [|discriminate Hsc].
    rewrite Hsc; cbn [bind].
    destruct (getitem_key dl "geometry") as [dg|e0]; cbn [bind] in *.
    + rewrite Hraise. reflexivity.
    + injection Hraise as ->. reflexivity.
  - enter_accepted Hload Hnone Hacc.
    rewrite Hsl, Hdl; cbn [bind]. rewrite Htl, Htd; cbn [negb].
    unfold coordinates_of in Hsc, Hdc.
    destruct (getitem_key sl "geometry") as [sg|e0];
      cbn [bind] in *; [|discriminate Hsc].
    rewrite Hsc; cbn [bind].
    destruct (getitem_key dl "geometry") as [dg|e0];
      cbn [bind] in *; [|discriminate Hdc].
    rewrite Hdc; cbn [bind]. rewrite Hraise. reflexivity.
Qed.

(** The stages are all there is: whatever the body of the handler raises
    is a fault of one of them.  No fault comes from the distance or the
    assembly, which are never run. *)
Lemma body_fault_is_stage_fault
      (file : geojson_file) (path_name : string) (e : exn) :
  route_pipeline m file path_name = Raise e ->
  stage_fault file path_name e.
Proof.
  unfold route_pipeline.
  destruct (load_geojson_data file) as [data|e0] eqn:Hload; cbn [bind].
  2: { intros [= ->]. now apply fault_in_load. }
  destruct (is_none data) eqn:Hnone; [discriminate|].
  destruct (str_contains "-to-" path_name); cbn [negb]; [|discriminate].
  destruct (split "-to-" path_name) as [|p0 [|p1 [|p2 rest]]] eqn:Hsplit;
    cbn [List.length Nat.eqb negb nth]; try discriminate.
  destruct (truthy (VStr (strip p0))) eqn:Hs; cbn [negb orb]; [|discriminate].
  destruct (truthy (VStr (strip p1))) eqn:Hd; cbn [negb]; [|discriminate].
  destruct (String.eqb (strip p0) (strip p1)) eqn:Hneq; [discriminate|].
  assert (Hacc : accepted path_name (strip p0) (strip p1)).
  { exists p0, p1.
    split; [exact Hsplit|]. split; [reflexivity|]. split; [reflexivity|].
    split; [|split].
    - intros E. rewrite E in Hs. discriminate Hs.
    - intros E. rewrite E in Hd. discriminate Hd.
    - now apply String.eqb_neq. }
  destruct (find_location_by_id data (strip p0)) as [sl|e0] eqn:Hsl;
    cbn [bind].
  2: { intros [= ->].
       now apply fault_in_source_lookup with data (strip p0) (strip p1). }
  destruct (find_location_by_id data (strip p1)) as [dl|e0] eqn:Hdl;
    cbn [bind].
  2: { intros [= ->].
       now apply fault_in_dest_lookup with data (strip p0) (strip p1) sl. }
  destruct (truthy sl) eqn:Htl; cbn [negb]; [|discriminate].
  destruct (truthy dl) eqn:Htd; cbn [negb]; [|discriminate].
  destruct (getitem_key sl "geometry") as [sg|e0] eqn:Hsg; cbn [bind].
  2: { intros [= ->].
       apply fault_in_source_extraction
         with data (strip p0) (strip p1) sl dl; try assumption.
       unfold coordinates_of. now rewrite Hsg. }
  destruct (getitem_key sg "coordinates") as [sc|e0] eqn:Hsc; cbn [bind].
  2: { intros [= ->].
       apply fault_in_source_extraction
         with data (strip p0) (strip p1) sl dl; try assumption.
       unfold coordinates_of. rewrite Hsg. exact Hsc. }
  assert (Hsc' : coordinates_of sl = Ok sc).
  { unfold coordinates_of. rewrite Hsg. exact Hsc. }
  destruct (getitem_key dl "geometry") as [dg|e0] eqn:Hdg; cbn [bind].
  2: { intros [= ->].
       apply fault_in_dest_extraction
         with data (strip p0) (strip p1) sl dl sc; try assumption.
       unfold coordinates_of. now rewrite Hdg. }
  destruct (getitem_key dg "coordinates") as [dc|e0] eqn:Hdc; cbn [bind].
  2: { intros [= ->].
       apply fault_in_dest_extraction
         with data (strip p0) (strip p1) sl dl sc; try assumption.
       unfold coordinates_of. rewrite Hdg. exact Hdc. }
  destruct (generate_simple_route_raises sc dc) as [e0 Hgeo].
  rewrite Hgeo; cbn [bind]. intros [= ->].
  apply fault_in_geometry
    with data (strip p0) (strip p1) sl dl sc dc; try assumption.
  unfold coordinates_of. rewrite Hdg. exact Hdc.
Qed.

(** Every request is answered: with what the body returned, or with the
    500 of a stage's fault. *)
Lemma get_route_answer (file : geojson_file) (path_name : string) :
  (exists r, route_pipeline m file path_name = Ok r
             /\ get_route m file path_name = r)
  \/ (exists e, stage_fault file path_name e
                /\ get_route m file path_name
                   = mkResponse
                       (VDict [("error",
                                VStr ("Server error: " ++ exn_str e))]) 500).
Proof.
  destruct (route_pipeline m file path_name) as [r|e] eqn:Hbody.
  - left. exists r. split; [reflexivity|].
    unfold get_route. now rewrite Hbody.
  - right. exists e. split; [exact (body_fault_is_stage_fault _ _ _ Hbody)|].
    unfold get_route. now rewrite Hbody.
Qed.

End FaultFacts.

(** The specification's example request faults at the geometry. *)
Lemma campus_geometry_fault :
  stage_fault campus "loc1-to-loc2"
    (mkExn TypeError "unsupported operand type(s) for +: 'float' and 'list'").
Proof.
  apply fault_in_geometry
    with campus_data "loc1" "loc2"
         (point_feature "loc1" "Gate" 77.0 13.0)
         (point_feature "loc2" "Library" 77.01 13.01)
         (VList [VFloat 77.0; VFloat 13.0])
         (VList [VFloat 77.01; VFloat 13.01]);
    try reflexivity.
  exists "loc1", "loc2". repeat split; discriminate.
Defined.

(** A file the process may not read faults at the load. *)
Lemma unreadable_load_fault :
  stage_fault (Unreadable "PermissionError" "[Errno 13] Permission denied")
    "loc1-to-loc2"
    (mkExn (OtherException "PermissionError") "[Errno 13] Permission denied").
Proof. apply fault_in_load. reflexivity. Defined.

Lemma stage_fault_caught_witness :
  get_route small_angle_libm campus "loc1-to-loc2"
  = mkResponse
      (VDict [("error",
               VStr "Server error: unsupported operand type(s) for +: 'float' and 'list'")])
      500
  /\ get_route small_angle_libm
       (Unreadable "PermissionError" "[Errno 13] Permission denied")
       "loc1-to-loc2"
     = mkResponse
         (VDict [("error", VStr "Server error: [Errno 13] Permission denied")])
         500.
Proof.
  split.
  - apply (stage_fault_caught small_angle_libm campus "loc1-to-loc2"
             (mkExn TypeError
                    "unsupported operand type(s) for +: 'float' and 'list'")).
    exact campus_geometry_fault.
  - apply (stage_fault_caught small_angle_libm
             (Unreadable "PermissionError" "[Errno 13] Permission denied")
             "loc1-to-loc2"
             (mkExn (OtherException "PermissionError")
                    "[Errno 13] Permission denied")).
    exact unreadable_load_fault.
Defined.
